(** * Verification of the tunnel client agent (uzochukwueddie/tunnel)

    A shallow embedding of the agent's TypeScript sources:
    - [src/utils/utils.ts]: [fixPublicUrl], [sendRequestLog],
      [sendConnectMessage], [createMessage];
    - [src/services/http-proxy.service.ts]: [HttpProxy.forwardRequest] and
      [HttpProxy.filterHeaders];
    - [src/services/message-handler.service.ts]: the handlers of
      [MessageHandlerService];
    - [src/socketIO/socket-handler.ts]: the ['message'] listener.

    JS strings are [String.string] (their UTF-8 bytes), byte buffers are
    [list Z] with values in 0..255, JS objects used as header maps are
    association lists in insertion order, and effects (socket emits, the
    local HTTP service, the clock) are explicit inputs and outputs. *)

From Stdlib Require Import ZArith List String Ascii Bool Lia.
Import ListNotations.
Open Scope string_scope.
Open Scope Z_scope.

(* ------------------------------------------------------------------ *)
(** ** String primitives used by the sources *)

Module JsString.

(** [s.startsWith(p)] *)
Definition startsWith (s p : string) : bool := String.prefix p s.

(** [s.includes(p)]: [p] occurs at some position of [s]. *)
Fixpoint includes (s p : string) : bool :=
  match s with
  | EmptyString => String.prefix p EmptyString
  | String _ s' => String.prefix p s || includes s' p
  end.

(** Truthiness of a string: the empty string is falsy. *)
Definition truthy (s : string) : bool :=
  match s with EmptyString => false | _ => true end.

Fixpoint drop (n : nat) (s : string) : string :=
  match n, s with
  | O, _ => s
  | S n', String _ s' => drop n' s'
  | S _, EmptyString => EmptyString
  end.

Definition is_digit (c : ascii) : bool :=
  let n := nat_of_ascii c in (Nat.leb 48 n && Nat.leb n 57)%bool.

(** Decimal rendering of a number, as [n.toString()] / template literals. *)
Fixpoint dec_aux (fuel : nat) (n : Z) (acc : string) : string :=
  match fuel with
  | O => acc
  | S f =>
      let acc' := String (ascii_of_nat (48 + Z.to_nat (n mod 10))) acc in
      if n <? 10 then acc' else dec_aux f (n / 10) acc'
  end.

Definition toString (n : Z) : string :=
  if n <? 0 then "-" ++ dec_aux 64 (- n) "" else dec_aux 64 n "".

End JsString.

Import JsString.

(* ------------------------------------------------------------------ *)
(** ** Public-URL normalizer: [fixPublicUrl] (utils.ts) *)

Module PublicUrl.

(** The alternatives of [/\.(com|net|org|io|dev|app|co|fit)\d+/g], in the
    order the regex engine tries them. *)
Definition tlds : list string :=
  ["com"; "net"; "org"; "io"; "dev"; "app"; "co"; "fit"].

Definition starts_with_digit (s : string) : bool :=
  match s with String c _ => is_digit c | EmptyString => false end.

Fixpoint drop_digits (s : string) : string :=
  match s with
  | String c s' => if is_digit c then drop_digits s' else s
  | EmptyString => EmptyString
  end.

(** Match of [(com|...|fit)\d+] right after a dot: the first alternative
    followed by at least one digit; [\d+] is greedy.  Returns the captured
    TLD and the text after the match. *)
Fixpoint match_tld (alts : list string) (rest : string)
  : option (string * string) :=
  match alts with
  | [] => None
  | t :: alts' =>
      if String.prefix t rest && starts_with_digit (drop (String.length t) rest)
      then Some (t, drop_digits (drop (String.length t) rest))
      else match_tld alts' rest
  end.

(** [.replace(/\.(com|...|fit)\d+/g, '.$1')]: scan left to right, replace
    each match by ['.' + tld] and resume after it.  Every step consumes at
    least one character, so [String.length s] is enough fuel. *)
Fixpoint replace_fused_ports_fuel (fuel : nat) (s : string) : string :=
  match fuel with
  | O => s
  | S f =>
      match s with
      | EmptyString => EmptyString
      | String c s' =>
          if Ascii.eqb c "."%char then
            match match_tld tlds s' with
            | Some (t, r) => "." ++ t ++ replace_fused_ports_fuel f r
            | None => String c (replace_fused_ports_fuel f s')
            end
          else String c (replace_fused_ports_fuel f s')
      end
  end.

Definition replace_fused_ports (s : string) : string :=
  replace_fused_ports_fuel (String.length s) s.

Fixpoint all_digits_nonempty (s : string) : bool :=
  match s with
  | EmptyString => false
  | String c EmptyString => is_digit c
  | String c s' => is_digit c && all_digits_nonempty s'
  end.

(** [.replace(/:(\d+)$/, '')]: the leftmost [':'] followed only by (at least
    one) digits up to the end of the string is removed with those digits. *)
Fixpoint strip_trailing_port (s : string) : string :=
  match s with
  | EmptyString => EmptyString
  | String c s' =>
      if Ascii.eqb c ":"%char && all_digits_nonempty s' then EmptyString
      else String c (strip_trailing_port s')
  end.

(** [[^:/]+], greedy. *)
Fixpoint host_run (s : string) : string :=
  match s with
  | String c s' =>
      if Ascii.eqb c ":"%char || Ascii.eqb c "/"%char then EmptyString
      else String c (host_run s')
  | EmptyString => EmptyString
  end.

(** [(?:wss?:\/\/)?([^:/]+)] anchored at the current position: the optional
    group is tried first ([wss://], then [ws://]), then skipped. *)
Definition match_domain_at (s : string) : option string :=
  let after (p : string) :=
    if String.prefix p s then
      let r := host_run (drop (String.length p) s) in
      if truthy r then Some r else None
    else None in
  match after "wss://" with
  | Some r => Some r
  | None =>
      match after "ws://" with
      | Some r => Some r
      | None => let r := host_run s in if truthy r then Some r else None
      end
  end.

(** [options.serverUrl.match(/(?:wss?:\/\/)?([^:/]+)/)?.[1]]: the capture of
    the leftmost match, [None] for [undefined]. *)
Fixpoint serverDomainOf (s : string) : option string :=
  match match_domain_at s with
  | Some r => Some r
  | None =>
      match s with
      | EmptyString => None
      | String _ s' => serverDomainOf s'
      end
  end.

(** [.replace(/^http:\/\//, 'https://')] *)
Definition force_https (s : string) : string :=
  if String.prefix "http://" s then "https://" ++ drop 7 s else s.

(** [/localhost|127\.0\.0\.1/.test(url)] *)
Definition is_local (url : string) : bool :=
  includes url "localhost" || includes url "127.0.0.1".

(** [fixPublicUrl(url, subdomain, options)]; only [options.serverUrl] is
    read.  No step of the body throws on a string, so the [catch] branch is
    unreachable and not modelled. *)
Definition fixPublicUrl (url subdomain serverUrl : string) : string :=
  if is_local url then url
  else
    let fixedUrl := strip_trailing_port (replace_fused_ports url) in
    let fixedUrl :=
      match serverDomainOf serverUrl with
      | Some serverDomain =>
          if truthy serverDomain && truthy subdomain
             && negb (includes fixedUrl serverDomain)
          then
            let protocol :=
              if startsWith serverUrl "https://" then "https://" else "http://" in
            protocol ++ subdomain ++ serverDomain
          else fixedUrl
      | None => fixedUrl
      end in
    force_https fixedUrl.

End PublicUrl.

Example fix_ex1 :
  PublicUrl.replace_fused_ports "http://demo.tunnl.fit3000:3000"
  = "http://demo.tunnl.fit:3000".
Proof. reflexivity. Qed.

Example fix_ex2 :
  PublicUrl.serverDomainOf "https://tunnl.fit" = Some "https".
Proof. reflexivity. Qed.

Example fix_ex3 :
  PublicUrl.serverDomainOf "wss://tunnl.fit:443/x" = Some "tunnl.fit".
Proof. reflexivity. Qed.

Example fix_ex4 :
  PublicUrl.fixPublicUrl "http://demo.tunnl.fit3000:3000" "demo."
    "https://tunnl.fit" = "https://demo.https".
Proof. reflexivity. Qed.

(* ------------------------------------------------------------------ *)
(** ** Buffers and base64 (Node's [Buffer]) *)

Module Base64.

Definition alphabet : string :=
  "ABCDEFGHIJKLMNOPQRSTUVWXYZabcdefghijklmnopqrstuvwxyz0123456789+/".

Definition char_of (n : Z) : string :=
  match String.get (Z.to_nat n) alphabet with
  | Some c => String c EmptyString
  | None => EmptyString
  end.

(** [Buffer.toString('base64')]: standard alphabet, [=] padding, no line
    wrapping. *)
Fixpoint encode (bs : list Z) : string :=
  match bs with
  | a :: b :: c :: r =>
      let n := Z.lor (Z.shiftl a 16) (Z.lor (Z.shiftl b 8) c) in
      char_of (Z.shiftr n 18) ++ char_of (Z.land (Z.shiftr n 12) 63)
      ++ char_of (Z.land (Z.shiftr n 6) 63) ++ char_of (Z.land n 63)
      ++ encode r
  | [a; b] =>
      let n := Z.lor (Z.shiftl a 16) (Z.shiftl b 8) in
      char_of (Z.shiftr n 18) ++ char_of (Z.land (Z.shiftr n 12) 63)
      ++ char_of (Z.land (Z.shiftr n 6) 63) ++ "="
  | [a] =>
      let n := Z.shiftl a 16 in
      char_of (Z.shiftr n 18) ++ char_of (Z.land (Z.shiftr n 12) 63) ++ "=="
  | [] => EmptyString
  end.

(** Value of a base64 digit; Node also accepts the URL-safe [-] and [_]. *)
Definition digit_value (c : ascii) : option Z :=
  let n := Z.of_nat (nat_of_ascii c) in
  if (65 <=? n) && (n <=? 90) then Some (n - 65)
  else if (97 <=? n) && (n <=? 122) then Some (n - 71)
  else if (48 <=? n) && (n <=? 57) then Some (n + 4)
  else if (n =? 43) || (n =? 45) then Some 62
  else if (n =? 47) || (n =? 95) then Some 63
  else None.

(** The 6-bit digits of a base64 string: characters outside the alphabet
    are skipped, decoding stops at the first [=]. *)
Fixpoint digits (s : string) : list Z :=
  match s with
  | EmptyString => []
  | String c s' =>
      if Ascii.eqb c "="%char then []
      else match digit_value c with
           | Some v => v :: digits s'
           | None => digits s'
           end
  end.

Fixpoint bytes_of_digits (ds : list Z) : list Z :=
  match ds with
  | a :: b :: c :: d :: r =>
      let n := Z.lor (Z.shiftl a 18) (Z.lor (Z.shiftl b 12)
                 (Z.lor (Z.shiftl c 6) d)) in
      Z.shiftr n 16 :: Z.land (Z.shiftr n 8) 255 :: Z.land n 255
        :: bytes_of_digits r
  | [a; b; c] =>
      let n := Z.lor (Z.shiftl a 18) (Z.lor (Z.shiftl b 12) (Z.shiftl c 6)) in
      [Z.shiftr n 16; Z.land (Z.shiftr n 8) 255]
  | [a; b] =>
      let n := Z.lor (Z.shiftl a 18) (Z.shiftl b 12) in [Z.shiftr n 16]
  | _ => []
  end.

(** [Buffer.from(s, 'base64')]: lenient decoding, never throws. *)
Definition decode (s : string) : list Z := bytes_of_digits (digits s).

End Base64.

(** [Buffer.from(s)]: the bytes of the string. *)
Definition bytes_of_string (s : string) : list Z :=
  map (fun c => Z.of_nat (nat_of_ascii c)) (list_ascii_of_string s).

Example base64_ex1 : Base64.encode (bytes_of_string "hello") = "aGVsbG8=".
Proof. reflexivity. Qed.

Example base64_ex2 : Base64.decode "aGVsbG8=" = bytes_of_string "hello".
Proof. reflexivity. Qed.

(* ------------------------------------------------------------------ *)
(** ** Header maps: [Record<string, string | string[]>] *)

Inductive HeaderValue : Type :=
| HStr (s : string)
| HArr (l : list string).

(** A JS object with string keys, in insertion order; keys are unique. *)
Definition Headers : Type := list (string * HeaderValue).

(** [obj[key]] *)
Fixpoint js_get (o : Headers) (k : string) : option HeaderValue :=
  match o with
  | [] => None
  | (k', v) :: o' => if String.eqb k k' then Some v else js_get o' k
  end.

(** [obj[key] = value]: overwrite in place, or append a new key. *)
Fixpoint js_set (o : Headers) (k : string) (v : HeaderValue) : Headers :=
  match o with
  | [] => [(k, v)]
  | (k', v') :: o' =>
      if String.eqb k k' then (k', v) :: o' else (k', v') :: js_set o' k v
  end.

Definition header_truthy (v : HeaderValue) : bool :=
  match v with HStr s => truthy s | HArr _ => true end.

(** [String.prototype.toLowerCase] on the letters A-Z. *)
Definition lower_char (c : ascii) : ascii :=
  let n := nat_of_ascii c in
  if (Nat.leb 65 n && Nat.leb n 90)%bool then ascii_of_nat (n + 32) else c.

Fixpoint toLowerCase (s : string) : string :=
  match s with
  | EmptyString => EmptyString
  | String c s' => String (lower_char c) (toLowerCase s')
  end.

(* ------------------------------------------------------------------ *)
(** ** HTTP forwarder: [HttpProxy] (http-proxy.service.ts) *)

Module HttpProxy.

Record ProxyRequest : Type := {
  pq_method : string;
  pq_path : string;
  pq_query : string;
  pq_headers : Headers;
  pq_body : list Z
}.

Record ProxyResponse : Type := {
  statusCode : Z;
  statusMessage : string;
  headers : Headers;
  body : list Z
}.

(** The request handed to axios.  The constant options of the call
    ([responseType: 'arraybuffer'], [maxRedirects: 0], [validateStatus:
    () => true]) are fields so that the model shows them. *)
Record AxiosConfig : Type := {
  ax_method : string;
  ax_url : string;
  ax_headers : Headers;
  ax_data : option (list Z);
  ax_maxRedirects : Z;
  ax_acceptAnyStatus : bool
}.

(** A thrown JS value: whether it is an [Error] instance, whether
    [axios.isAxiosError] holds for it, its [code] and its [message]. *)
Record JsError : Type := {
  err_instanceofError : bool;
  err_isAxios : bool;
  err_code : option string;
  err_message : string
}.

(** [new Error(msg)] *)
Definition newError (msg : string) : JsError :=
  {| err_instanceofError := true; err_isAxios := false;
     err_code := None; err_message := msg |}.

(** What the awaited [axios(...)] call does: resolve with a response (any
    status is accepted) or reject. *)
Inductive AxiosOutcome : Type :=
| AxResponse (status : Z) (statusText : string) (resp_headers : Headers)
             (data : list Z)
| AxReject (e : JsError).

(** The local HTTP service, as seen through axios. *)
Definition LocalService : Type := AxiosConfig -> AxiosOutcome.

Inductive Result (A : Type) : Type :=
| Ok (a : A)
| Throw (e : JsError).
Arguments Ok {A} a.
Arguments Throw {A} e.

Definition excludeHeaders : list string :=
  ["host"; "connection"; "transfer-encoding"; "content-length"].

Definition set_has (s : list string) (k : string) : bool :=
  existsb (String.eqb k) s.

(** [filterHeaders]: [Object.entries(headers).forEach(...)]. *)
Definition filterHeaders (hs : Headers) : Headers :=
  fold_left
    (fun filtered '(key, value) =>
       if negb (set_has excludeHeaders (toLowerCase key))
       then js_set filtered key value else filtered)
    hs [].

Definition axiosConfig (localPort : Z) (request : ProxyRequest) : AxiosConfig :=
  let queryString :=
    if truthy (pq_query request) then "?" ++ pq_query request else "" in
  let url := "http://localhost:" ++ toString localPort ++ pq_path request
             ++ queryString in
  {| ax_method := pq_method request;
     ax_url := url;
     ax_headers := filterHeaders (pq_headers request);
     ax_data := if Nat.ltb 0 (List.length (pq_body request))
                then Some (pq_body request) else None;
     ax_maxRedirects := 0;
     ax_acceptAnyStatus := true |}.

(** [error.code === c] *)
Definition code_is (code : option string) (c : string) : bool :=
  match code with Some k => String.eqb k c | None => false end.

(** [forwardRequest(request)] of an [HttpProxy] built with [localPort]. *)
Definition forwardRequest (localPort : Z) (local : LocalService)
    (request : ProxyRequest) : Result ProxyResponse :=
  match local (axiosConfig localPort request) with
  | AxResponse status statusText _ data =>
      Ok {| statusCode := status;
            statusMessage := statusText;
            headers := filterHeaders (pq_headers request);
            body := data |}
  | AxReject error =>
      if err_isAxios error then
        if code_is (err_code error) "ECONNREFUSED" then
          Throw (newError ("Cannot connect to local service on port "
                           ++ toString localPort
                           ++ ". Is your service running?"))
        else if code_is (err_code error) "ETIMEDOUT"
             || code_is (err_code error) "ECONNABORTED"
        then Throw (newError "Request to local service timed out")
        else Throw error
      else Throw error
  end.

End HttpProxy.

(* ------------------------------------------------------------------ *)
(** ** Protocol messages (protocol.interface.ts) *)

Module Protocol.

Record ConnectMessage : Type := {
  cn_timestamp : Z;
  cn_token : option string;
  cn_requestedSubdomain : option string;
  cn_agentVersion : string;
  cn_localPort : option Z;
  cn_requestCount : option Z
}.

Record ConnectAckMessage : Type := {
  ca_timestamp : Z;
  ca_tunnelId : string;
  ca_subdomain : string;
  ca_publicUrl : string
}.

Record RequestMessage : Type := {
  rq_timestamp : Z;
  rq_streamId : string;
  rq_tunnelId : string;
  rq_method : string;
  rq_path : string;
  rq_query : string;
  rq_headers : Headers;
  rq_body : string  (* base64 *)
}.

Record ResponseMessage : Type := {
  rs_timestamp : Z;
  rs_streamId : string;
  rs_statusCode : Z;
  rs_statusMessage : string;
  rs_headers : Headers;
  rs_body : string  (* base64 *)
}.

(** The optional fields hold whatever the source puts there ([None] for
    [undefined]); [host], [userAgent] and [ipAddress] are read from the
    request's header object, whose values may be arrays. *)
Record RequestLogMessage : Type := {
  lg_timestamp : Z;
  lg_tunnelId : string;
  lg_method : string;
  lg_host : HeaderValue;
  lg_path : string;
  lg_statusCode : Z;
  lg_responseTime : Z;
  lg_ipAddress : option HeaderValue;
  lg_userAgent : option HeaderValue;
  lg_errorMessage : option string
}.

Record LocalServicePingMessage : Type := {
  lp_timestamp : Z;
  lp_tunnelId : string;
  lp_localServiceConnected : bool
}.

Record ErrorMessage : Type := {
  er_timestamp : Z;
  er_streamId : option string;
  er_code : string;
  er_message : string
}.

Inductive TunnelMessage : Type :=
| MConnect (m : ConnectMessage)
| MConnectAck (m : ConnectAckMessage)
| MRequest (m : RequestMessage)
| MResponse (m : ResponseMessage)
| MRequestLog (m : RequestLogMessage)
| MHeartbeat (timestamp : Z)
| MHeartbeatAck (timestamp : Z)
| MLocalServicePing (m : LocalServicePingMessage)
| MError (m : ErrorMessage)
| MDisconnect (timestamp : Z) (reason : option string).

(** One [socket.emit(event, serializeMessage(message))]. *)
Definition Emit : Type := (string * TunnelMessage)%type.

End Protocol.

Import Protocol.

(* ------------------------------------------------------------------ *)
(** ** Options and utilities (utils.ts, config.ts) *)

Record TunnelClientOptions : Type := {
  serverUrl : string;
  localPort : Z;
  opt_subdomain : string;
  token : option string;
  reconnect : option bool
}.

(** [AGENT_VERSION] outside development. *)
Definition AGENT_VERSION : string := "1.0.0".

(** [sendConnectMessage(options, socket)], stamped at [now]. *)
Definition sendConnectMessage (options : TunnelClientOptions) (now : Z)
  : list Emit :=
  [("message",
    MConnect {| cn_timestamp := now;
                cn_token := token options;
                cn_requestedSubdomain := Some (opt_subdomain options);
                cn_agentVersion := AGENT_VERSION;
                cn_localPort := Some (localPort options);
                cn_requestCount := Some 0 |})].

(** [sendRequestLog(socket, tunnelId, publicUrl, requestMessage, statusCode,
    responseTime, errorMessage)], stamped at [now]. *)
Definition sendRequestLog (tunnelId publicUrl : string)
    (requestMessage : RequestMessage) (statusCode responseTime : Z)
    (errorMessage : option string) (now : Z) : list Emit :=
  if negb (truthy tunnelId) then []
  else
    let headers := rq_headers requestMessage in
    let userAgent := js_get headers "user-agent" in
    let host :=
      match js_get headers "host" with
      | Some v => if header_truthy v then v
                  else if truthy publicUrl then HStr publicUrl
                  else HStr "unknown"
      | None => if truthy publicUrl then HStr publicUrl else HStr "unknown"
      end in
    [("message",
      MRequestLog {| lg_timestamp := now;
                     lg_tunnelId := tunnelId;
                     lg_method := rq_method requestMessage;
                     lg_host := host;
                     lg_path := rq_path requestMessage;
                     lg_statusCode := statusCode;
                     lg_responseTime := responseTime;
                     lg_userAgent := userAgent;
                     lg_ipAddress := js_get headers "x-forwarded-for";
                     lg_errorMessage := errorMessage |})].

(* ------------------------------------------------------------------ *)
(** ** [MessageHandlerService] (message-handler.service.ts) *)

Module Handler.

Import HttpProxy.

(** The fields of the service.  The socket is always present (its field is
    typed [Socket] and set by the constructor); the three timers are
    [true] when their handle is set. *)
Record State : Type := {
  options : TunnelClientOptions;
  isConnected : bool;
  shouldReconnect : bool;
  tunnelId : option string;
  subdomain : option string;
  publicUrl : option string;
  httpProxy : option Z;  (* the [localPort] of the [HttpProxy], if any *)
  heartbeatInterval : bool;
  reconnectTimeout : bool;
  localServicePingInterval : bool
}.

(** [new MessageHandlerService(socket, options, connectFn)] *)
Definition create (o : TunnelClientOptions) : State :=
  {| options := o; isConnected := false; shouldReconnect := true;
     tunnelId := None; subdomain := None; publicUrl := None;
     httpProxy := Some (localPort o); heartbeatInterval := false;
     reconnectTimeout := false; localServicePingInterval := false |}.

(** [!!x ? x : ''] for a [string | null] field. *)
Definition or_empty (x : option string) : string :=
  match x with Some s => if truthy s then s else "" | None => "" end.

(** The values of [Date.now()] read by one run of [handleRequest]: at
    entry, when the RESPONSE is created, and in the [finally] block. *)
Record Clock : Type := {
  t_start : Z;
  t_response : Z;
  t_finally : Z
}.

(** The RESPONSE built in the [catch] block. *)
Definition badGateway (requestMessage : RequestMessage) (now : Z)
  : ResponseMessage :=
  {| rs_timestamp := now;
     rs_streamId := rq_streamId requestMessage;
     rs_statusCode := 502;
     rs_statusMessage := "Bad Gateway";
     rs_headers := [("content-type", HStr "text/plain")];
     rs_body := Base64.encode
                  (bytes_of_string "Error forwarding request to local service")
  |}.

(** The argument of [this.httpProxy.forwardRequest] in [handleRequest]. *)
Definition toProxyRequest (requestMessage : RequestMessage) : ProxyRequest :=
  {| pq_method := rq_method requestMessage;
     pq_path := rq_path requestMessage;
     pq_query := rq_query requestMessage;
     pq_headers := rq_headers requestMessage;
     pq_body := Base64.decode (rq_body requestMessage) |}.

(** [handleRequest(requestMessage)]: the frames it emits, in order.  The
    outer [errorMessage] is declared and never assigned: the [catch] block
    binds its own [const errorMessage] (the RESPONSE frame).  The size
    warning only logs to the console. *)
Definition handleRequest (st : State) (local : LocalService)
    (requestMessage : RequestMessage) (clock : Clock) : list Emit :=
  let errorMessage : option string := None in
  let finally_ (statusCode : Z) :=
    sendRequestLog (or_empty (tunnelId st)) (or_empty (publicUrl st))
      requestMessage statusCode (t_finally clock - t_start clock)
      errorMessage (t_finally clock) in
  match httpProxy st with
  | None => finally_ 502
  | Some port =>
      match forwardRequest port local (toProxyRequest requestMessage) with
      | Ok response =>
          let responseMessage :=
            {| rs_timestamp := t_response clock;
               rs_streamId := rq_streamId requestMessage;
               rs_statusCode := HttpProxy.statusCode response;
               rs_statusMessage := HttpProxy.statusMessage response;
               rs_headers := HttpProxy.headers response;
               rs_body := Base64.encode (HttpProxy.body response) |} in
          ("message", MResponse responseMessage)
            :: finally_ (HttpProxy.statusCode response)
      | Throw _ =>
          ("message", MResponse (badGateway requestMessage (t_response clock)))
            :: finally_ 502
      end
  end.

(** [sendLocalServicePing(connected)], stamped at [now]. *)
Definition sendLocalServicePing (st : State) (connected : bool) (now : Z)
  : list Emit :=
  if negb (truthy (or_empty (tunnelId st))) then []
  else [("local_service",
         MLocalServicePing {| lp_timestamp := now;
                              lp_tunnelId := or_empty (tunnelId st);
                              lp_localServiceConnected := connected |})].

(** The probe request of [pingLocalService]. *)
Definition pingRequest : ProxyRequest :=
  {| pq_method := "HEAD"; pq_path := "/"; pq_query := "";
     pq_headers := [("User-Agent", HStr "Tunnel-Agent-Ping")];
     pq_body := bytes_of_string "" |}.

(** The test of the [catch] block of [pingLocalService]. *)
Definition probe_error_is_down (e : JsError) : bool :=
  err_instanceofError e
  && (includes (err_message e) "ECONNREFUSED"
      || includes (err_message e) "Cannot connect to local service"
      || includes (err_message e) "ETIMEDOUT").

(** [pingLocalService()]: one probe tick. *)
Definition pingLocalService (st : State) (local : LocalService) (now : Z)
  : list Emit :=
  match httpProxy st with
  | None => []
  | Some port =>
      if negb (truthy (or_empty (tunnelId st))) then []
      else
        match forwardRequest port local pingRequest with
        | Ok _ => sendLocalServicePing st true now
        | Throw e =>
            if probe_error_is_down e then sendLocalServicePing st false now
            else []
        end
  end.

End Handler.

Module Session.

Import Handler.

(** [handleConnect()], stamped at [now]. *)
Definition handleConnect (st : State) (now : Z) : list Emit :=
  if negb (isConnected st) then sendConnectMessage (options st) now else [].

(** [handleConnectAck(message)]: stores the identity and the normalized
    URL, starts the heartbeat and local-probe timers.  Its first probe is
    asynchronous: it emits nothing before its [await]. *)
Definition handleConnectAck (st : State) (message : ConnectAckMessage)
  : State :=
  {| options := options st;
     isConnected := isConnected st;
     shouldReconnect := shouldReconnect st;
     tunnelId := Some (ca_tunnelId message);
     subdomain := Some (ca_subdomain message);
     publicUrl := Some (PublicUrl.fixPublicUrl (ca_publicUrl message)
                          (ca_subdomain message) (serverUrl (options st)));
     httpProxy := httpProxy st;
     heartbeatInterval := true;
     reconnectTimeout := reconnectTimeout st;
     localServicePingInterval := true |}.

Definition setIsConnected (st : State) (b : bool) : State :=
  {| options := options st; isConnected := b;
     shouldReconnect := shouldReconnect st; tunnelId := tunnelId st;
     subdomain := subdomain st; publicUrl := publicUrl st;
     httpProxy := httpProxy st; heartbeatInterval := heartbeatInterval st;
     reconnectTimeout := reconnectTimeout st;
     localServicePingInterval := localServicePingInterval st |}.

(** What one ['message'] event does synchronously: the new state, the
    frames emitted, whether [resolve()] of the pending [connect()] was
    called, and the REQUEST frames whose (asynchronous) handling started. *)
Record ListenerStep : Type := {
  ls_state : State;
  ls_emits : list Emit;
  ls_resolved : bool;
  ls_spawned : list RequestMessage
}.

(** [handleMessage(message)] up to its first suspension. *)
Definition handleMessage (st : State) (now : Z) (message : TunnelMessage)
  : State * list Emit * list RequestMessage :=
  match message with
  | MConnect _ => (st, handleConnect st now, [])
  | MConnectAck m => (handleConnectAck st m, [], [])
  | MRequest m => (st, [], [m])
  | _ => (st, [], [])  (* ERROR and unknown types are only logged *)
  end.

Definition is_connect_or_ack (message : TunnelMessage) : bool :=
  match message with MConnect _ | MConnectAck _ => true | _ => false end.

(** The ['message'] listener of [SocketIOHandler.listen]; [None] is a frame
    that [parseMessage] rejects (the error is caught and logged). *)
Definition onMessage (st : State) (now : Z) (data : option TunnelMessage)
  : ListenerStep :=
  match data with
  | None => {| ls_state := st; ls_emits := []; ls_resolved := false;
               ls_spawned := [] |}
  | Some message =>
      let '(st1, out, spawned) := handleMessage st now message in
      if is_connect_or_ack message && negb (isConnected st1) then
        {| ls_state := setIsConnected st1 true; ls_emits := out;
           ls_resolved := true; ls_spawned := spawned |}
      else
        {| ls_state := st1; ls_emits := out; ls_resolved := false;
           ls_spawned := spawned |}
  end.

(** [handleDisconnect()]: the new state and the reconnection scheduled, as
    [(delay, retryCount)] of the [attemptReconnect] call it arms. *)
Definition handleDisconnect (st : State) : State * option (Z * Z) :=
  let armed :=
    shouldReconnect st
    && match reconnect (options st) with Some b => b | None => false end in
  ({| options := options st; isConnected := false;
      shouldReconnect := shouldReconnect st; tunnelId := tunnelId st;
      subdomain := subdomain st; publicUrl := publicUrl st;
      httpProxy := httpProxy st; heartbeatInterval := false;
      reconnectTimeout := armed || reconnectTimeout st;
      localServicePingInterval := false |},
   if armed then Some (5000, 0) else None).

Definition maxRetries : Z := 10.
Definition baseDelay : Z := 5000.
Definition maxDelay : Z := 60000.

Inductive ReconnectStep : Type :=
| Reconnected
| Scheduled (delay : Z) (nextRetry : Z)  (* [setTimeout(.., delay)] *)
| Exited (code : Z).                      (* [process.exit(code)] *)

(** [attemptReconnect(retryCount)], given whether [connectFn()] resolved
    and the value of [shouldReconnect] when it settled.  [Math.pow(2, r)]
    is exact for the retry counts that reach it (0..8). *)
Definition attemptReconnect (shouldReconnect : bool) (retryCount : Z)
    (connectOk : bool) : ReconnectStep :=
  if connectOk then Reconnected
  else if (retryCount <? maxRetries - 1) && shouldReconnect then
    Scheduled (Z.min (baseDelay * 2 ^ retryCount) maxDelay) (retryCount + 1)
  else Exited 1.

(** [n] consecutive failed attempts, starting at [retryCount] and following
    the timers they arm: the delays scheduled after each failure, and the
    exit code if the process exited. *)
Fixpoint failures (shouldReconnect : bool) (retryCount : Z) (n : nat)
  : list Z * option Z :=
  match n with
  | O => ([], None)
  | S n' =>
      match attemptReconnect shouldReconnect retryCount false with
      | Scheduled d r =>
          let '(ds, e) := failures shouldReconnect r n' in (d :: ds, e)
      | Exited c => ([], Some c)
      | Reconnected => ([], None)
      end
  end.

End Session.

Example failures_ex :
  Session.failures true 0 10
  = ([5000; 10000; 20000; 40000; 60000; 60000; 60000; 60000; 60000],
     Some 1).
Proof. reflexivity. Qed.

Module Lifecycle.

Import Handler.

(** [destroy()]: no more reconnection, every timer released. *)
Definition destroy (st : State) : State :=
  {| options := options st; isConnected := isConnected st;
     shouldReconnect := false; tunnelId := tunnelId st;
     subdomain := subdomain st; publicUrl := publicUrl st;
     httpProxy := httpProxy st; heartbeatInterval := false;
     reconnectTimeout := false; localServicePingInterval := false |}.

(** [handleHeartbeat()], stamped at [now]. *)
Definition handleHeartbeat (now : Z) : list Emit :=
  [("message", MHeartbeatAck now)].

(** One tick of the interval armed by [startHeartbeat()]. *)
Definition heartbeatTick (st : State) (now : Z) : list Emit :=
  if isConnected st then [("message", MHeartbeat now)] else [].

(** The fields of [TunnelClient] that [disconnect()] touches. *)
Record Client : Type := {
  socket_present : bool;            (* [this.socket !== null] *)
  messageHandler : option State
}.

(** [TunnelClient.disconnect()], stamped at [now]: the new client and the
    frames emitted. *)
Definition clientDisconnect (c : Client) (now : Z) : Client * list Emit :=
  let h := option_map destroy (messageHandler c) in
  let out :=
    if socket_present c
    then [("message", MDisconnect now (Some "Client disconnect"))] else [] in
  ({| socket_present := false;
      messageHandler := option_map (fun s => Session.setIsConnected s false) h |},
   out).

End Lifecycle.

(* ------------------------------------------------------------------ *)
(** ** Observations on emitted frames *)

(** The RESPONSE frames emitted on the ['message'] event. *)
Definition responses (out : list Emit) : list ResponseMessage :=
  flat_map (fun e => match e with
                     | ("message", MResponse m) => [m]
                     | _ => []
                     end) out.

(** The REQUEST_LOG frames emitted on the ['message'] event. *)
Definition request_logs (out : list Emit) : list RequestLogMessage :=
  flat_map (fun e => match e with
                     | ("message", MRequestLog m) => [m]
                     | _ => []
                     end) out.

Definition is_request_log (e : Emit) : bool :=
  match snd e with MRequestLog _ => true | _ => false end.

(** The scenario of the spec: options, an established session, a request. *)
Module Scenario.

Import Handler.

Definition opts : TunnelClientOptions :=
  {| serverUrl := "https://tunnl.fit"; localPort := 3000;
     opt_subdomain := "demo"; token := Some "tok"; reconnect := Some true |}.

Definition ack : ConnectAckMessage :=
  {| ca_timestamp := 1; ca_tunnelId := "T1"; ca_subdomain := "demo";
     ca_publicUrl := "https://demo.tunnl.fit" |}.

Definition established : State :=
  Session.setIsConnected (Session.handleConnectAck (create opts) ack) true.

Definition request : RequestMessage :=
  {| rq_timestamp := 2; rq_streamId := "S"; rq_tunnelId := "T1";
     rq_method := "GET"; rq_path := "/x"; rq_query := "a=1";
     rq_headers := [("host", HStr "demo.tunnl.fit");
                    ("user-agent", HStr "curl/8")];
     rq_body := "" |}.

Definition clock : Clock := {| t_start := 10; t_response := 15; t_finally := 16 |}.

(** A local service answering [200 OK] with body [hello] and its own
    headers. *)
Definition hello : HttpProxy.LocalService :=
  fun _ => HttpProxy.AxResponse 200 "OK" [("content-type", HStr "text/html")]
             (bytes_of_string "hello").

Definition axios_error (code : string) (msg : string) : HttpProxy.JsError :=
  {| HttpProxy.err_instanceofError := true; HttpProxy.err_isAxios := true;
     HttpProxy.err_code := Some code; HttpProxy.err_message := msg |}.

(** A local service that is not listening. *)
Definition refused : HttpProxy.LocalService :=
  fun _ => HttpProxy.AxReject
             (axios_error "ECONNREFUSED" "connect ECONNREFUSED 127.0.0.1:3000").

(** A local service that does not answer in time. *)
Definition timed_out : HttpProxy.LocalService :=
  fun _ => HttpProxy.AxReject
             (axios_error "ETIMEDOUT" "connect ETIMEDOUT 127.0.0.1:3000").

End Scenario.

Example scenario_S2 :
  map rs_body (responses (Handler.handleRequest Scenario.established
     Scenario.hello Scenario.request Scenario.clock)) = ["aGVsbG8="].
Proof. vm_compute. reflexivity. Qed.

(* ------------------------------------------------------------------ *)
(** ** Claims *)

(** C1 (code bug).  The forwarder returns the filtered REQUEST headers, not
    the local service's response headers, and those are the headers of the
    RESPONSE frame: here the service answers with [content-type: text/html]
    and the RESPONSE carries the request's [user-agent: curl/8]. *)
Lemma C1_response_carries_request_headers :
  (exists r,
     HttpProxy.forwardRequest 3000 Scenario.hello
       (Handler.toProxyRequest Scenario.request) = HttpProxy.Ok r
     /\ HttpProxy.headers r = [("user-agent", HStr "curl/8")])
  /\ map rs_headers (responses (Handler.handleRequest Scenario.established
        Scenario.hello Scenario.request Scenario.clock))
     = [[("user-agent", HStr "curl/8")]].
Proof.
  split.
  - eexists. split; [vm_compute; reflexivity | reflexivity].
  - vm_compute. reflexivity.
Qed.

(** C2 (code bug).  On the spec's scenario S4 the normalizer returns
    ["https://demo.https"], not ["https://demo.tunnl.fit"]: the server-host
    regex only strips [ws://] or [wss://], so for ["https://tunnl.fit"] the
    extracted host is ["https"]. *)
Lemma C2_url_repair_S4 :
  PublicUrl.serverDomainOf "https://tunnl.fit" = Some "https"
  /\ PublicUrl.fixPublicUrl "http://demo.tunnl.fit3000:3000" "demo."
       "https://tunnl.fit" = "https://demo.https".
Proof. split; vm_compute; reflexivity. Qed.

(** C3 (code bug).  A probe that times out emits no LOCAL_SERVICE_PING:
    the forwarder rethrows it as ["Request to local service timed out"],
    which the probe's test does not recognise, whereas a refused
    connection (rethrown as ["Cannot connect to local service ..."]) emits
    [localServiceConnected = false]. *)
Lemma C3_timeout_probe_emits_nothing :
  Handler.pingLocalService Scenario.established Scenario.timed_out 20 = []
  /\ Handler.pingLocalService Scenario.established Scenario.refused 20
     = [("local_service",
         MLocalServicePing {| lp_timestamp := 20; lp_tunnelId := "T1";
                              lp_localServiceConnected := false |})].
Proof. split; vm_compute; reflexivity. Qed.

(** C10.  Whatever the forwarder does, every REQUEST_LOG that
    [handleRequest] emits has no [errorMessage]: the outer variable passed to
    [sendRequestLog] is never assigned. *)
Theorem C10_request_log_has_no_error_message :
  forall st local req clock,
  Forall (fun m => lg_errorMessage m = None)
    (request_logs (Handler.handleRequest st local req clock)).
Proof.
  intros st local req clock.
  unfold Handler.handleRequest, sendRequestLog.
  destruct (Handler.httpProxy st) as [port|];
    [destruct (HttpProxy.forwardRequest port local _)|];
    destruct (truthy _); simpl; repeat constructor.
Qed.

(** C9.  An inbound CONNECT frame while not connected makes the agent
    emit its own CONNECT frame, mark the session connected and resolve the
    pending [connect()], leaving [tunnelId], [subdomain] and [publicUrl] as
    they were. *)
Theorem C9_connect_frame_marks_connected :
  forall st now m,
  Handler.isConnected st = false ->
  let r := Session.onMessage st now (Some (MConnect m)) in
  Session.ls_emits r = sendConnectMessage (Handler.options st) now
  /\ Handler.isConnected (Session.ls_state r) = true
  /\ Session.ls_resolved r = true
  /\ Handler.tunnelId (Session.ls_state r) = Handler.tunnelId st
  /\ Handler.subdomain (Session.ls_state r) = Handler.subdomain st
  /\ Handler.publicUrl (Session.ls_state r) = Handler.publicUrl st.
Proof.
  intros st now m H.
  unfold Session.onMessage, Session.handleMessage, Session.handleConnect.
  rewrite H. simpl. repeat split.
Qed.

Lemma C9_connect_frame_marks_connected_witness :
  let r := Session.onMessage (Handler.create Scenario.opts) 5
             (Some (MConnect {| cn_timestamp := 4; cn_token := None;
                                cn_requestedSubdomain := None;
                                cn_agentVersion := "1.0.0";
                                cn_localPort := None;
                                cn_requestCount := None |})) in
  Handler.isConnected (Session.ls_state r) = true
  /\ Handler.tunnelId (Session.ls_state r) = None.
Proof.
  pose proof (C9_connect_frame_marks_connected (Handler.create Scenario.opts)
    5 {| cn_timestamp := 4; cn_token := None; cn_requestedSubdomain := None;
         cn_agentVersion := "1.0.0"; cn_localPort := None;
         cn_requestCount := None |} eq_refl) as H.
  simpl in H. destruct H as (_ & H1 & _ & H2 & _).
  split; [exact H1 | exact H2].
Defined.

(** *** Reconnection backoff *)

Definition backoff (i : nat) : Z := Z.min (5000 * 2 ^ Z.of_nat i) 60000.

Lemma failures_below_ceiling :
  forall n i, (i + n <= 9)%nat ->
  Session.failures true (Z.of_nat i) n = (map backoff (seq i n), None).
Proof.
  induction n as [|n IH]; intros i Hle; [reflexivity|].
  simpl. unfold Session.attemptReconnect, Session.maxRetries,
    Session.baseDelay, Session.maxDelay.
  assert (Hlt : (Z.of_nat i <? 9) = true) by (apply Z.ltb_lt; lia).
  change (10 - 1) with 9. rewrite Hlt. simpl.
  replace (Z.of_nat i + 1) with (Z.of_nat (S i)) by lia.
  rewrite IH by lia. reflexivity.
Qed.

(** C5.  In a disconnect episode (reconnection enabled and no
    [disconnect()] call), [handleDisconnect] arms attempt 0 after 5 s; after
    each of k < 10 consecutive failures the i-th delay scheduled is
    [min(5000 * 2^i, 60000)] ms and the process does not exit; the 10th
    consecutive failure schedules nothing more and exits with code 1. *)
Theorem C5_backoff_schedule :
  forall k, (k < 10)%nat ->
  (forall st, Handler.shouldReconnect st = true ->
     reconnect (Handler.options st) = Some true ->
     snd (Session.handleDisconnect st) = Some (5000, 0))
  /\ Session.failures true 0 k
     = (map (fun i => Z.min (5000 * 2 ^ Z.of_nat i) 60000) (seq 0 k), None)
  /\ Session.failures true 0 10
     = (map (fun i => Z.min (5000 * 2 ^ Z.of_nat i) 60000) (seq 0 9), Some 1).
Proof.
  intros k Hk. split; [|split].
  - intros st H1 H2. unfold Session.handleDisconnect. simpl.
    rewrite H1, H2. reflexivity.
  - exact (failures_below_ceiling k 0 ltac:(lia)).
  - vm_compute. reflexivity.
Qed.

Lemma C5_backoff_schedule_witness :
  Session.failures true 0 3 = ([5000; 10000; 20000], None).
Proof.
  destruct (C5_backoff_schedule 3 ltac:(lia)) as (_ & H & _).
  rewrite H. reflexivity.
Defined.

(** *** Header filtering *)

Lemma js_set_keys :
  forall (P : string -> Prop) o k v,
  Forall (fun kv => P (fst kv)) o -> P k ->
  Forall (fun kv => P (fst kv)) (js_set o k v).
Proof.
  intros P o k v Ho Hk. induction Ho as [|[k' v'] o Hk' Ho IH]; simpl.
  - constructor; [exact Hk | constructor].
  - destruct (String.eqb k k'); constructor; simpl in *; auto.
Qed.

Lemma filterHeaders_fold_keys :
  forall hs acc,
  Forall (fun kv => HttpProxy.set_has HttpProxy.excludeHeaders
                      (toLowerCase (fst kv)) = false) acc ->
  Forall (fun kv => HttpProxy.set_has HttpProxy.excludeHeaders
                      (toLowerCase (fst kv)) = false)
    (fold_left
       (fun filtered '(key, value) =>
          if negb (HttpProxy.set_has HttpProxy.excludeHeaders
                     (toLowerCase key))
          then js_set filtered key value else filtered) hs acc).
Proof.
  induction hs as [|[k v] hs IH]; intros acc Hacc;
    cbn -[HttpProxy.set_has toLowerCase js_set]; [exact Hacc|].
  apply IH.
  destruct (HttpProxy.set_has HttpProxy.excludeHeaders (toLowerCase k)) eqn:E;
    cbn -[HttpProxy.set_has toLowerCase js_set]; [exact Hacc|].
  apply (js_set_keys (fun k => HttpProxy.set_has HttpProxy.excludeHeaders
                                 (toLowerCase k) = false)); assumption.
Qed.

(** C6.  For every request and any casing of its header names, the header
    object handed to axios has no key whose lowercase form is [host],
    [connection], [transfer-encoding] or [content-length]. *)
Theorem C6_outbound_headers_filtered :
  forall port request,
  Forall (fun kv => HttpProxy.set_has
                      ["host"; "connection"; "transfer-encoding";
                       "content-length"] (toLowerCase (fst kv)) = false)
    (HttpProxy.ax_headers (HttpProxy.axiosConfig port request)).
Proof.
  intros port request. simpl.
  apply filterHeaders_fold_keys. constructor.
Qed.

Example filter_ex :
  HttpProxy.filterHeaders
    [("Host", HStr "a"); ("X-Id", HStr "1"); ("CONTENT-Length", HStr "3");
     ("Transfer-Encoding", HStr "chunked"); ("accept", HArr ["*/*"])]
  = [("X-Id", HStr "1"); ("accept", HArr ["*/*"])].
Proof. vm_compute. reflexivity. Qed.

(** *** Failed forwarding *)

Lemma responses_sendRequestLog :
  forall tid purl req code rt err now,
  responses (sendRequestLog tid purl req code rt err now) = [].
Proof.
  intros. unfold sendRequestLog. destruct (truthy tid); reflexivity.
Qed.

(** C8.  When the forwarder throws, [handleRequest] emits exactly one
    RESPONSE frame: same [streamId], status 502, ["Bad Gateway"],
    [content-type: text/plain] and the base64 of ["Error forwarding request
    to local service"]. *)
Theorem C8_failed_forward_bad_gateway :
  forall st local req clock port e,
  Handler.httpProxy st = Some port ->
  HttpProxy.forwardRequest port local (Handler.toProxyRequest req)
    = HttpProxy.Throw e ->
  exists m,
    responses (Handler.handleRequest st local req clock) = [m]
    /\ rs_streamId m = rq_streamId req
    /\ rs_statusCode m = 502
    /\ rs_statusMessage m = "Bad Gateway"
    /\ rs_headers m = [("content-type", HStr "text/plain")]
    /\ rs_body m = Base64.encode
                     (bytes_of_string "Error forwarding request to local service").
Proof.
  intros st local req clock port e Hp Hf.
  unfold Handler.handleRequest. rewrite Hp, Hf.
  exists (Handler.badGateway req (Handler.t_response clock)).
  split; [|repeat split].
  change (Handler.badGateway req (Handler.t_response clock)
          :: responses (sendRequestLog
               (Handler.or_empty (Handler.tunnelId st))
               (Handler.or_empty (Handler.publicUrl st)) req 502
               (Handler.t_finally clock - Handler.t_start clock) None
               (Handler.t_finally clock))
          = [Handler.badGateway req (Handler.t_response clock)]).
  rewrite responses_sendRequestLog. reflexivity.
Qed.

Example bad_gateway_body :
  Base64.encode (bytes_of_string "Error forwarding request to local service")
  = "RXJyb3IgZm9yd2FyZGluZyByZXF1ZXN0IHRvIGxvY2FsIHNlcnZpY2U=".
Proof. vm_compute. reflexivity. Qed.

Lemma C8_failed_forward_bad_gateway_witness :
  exists m,
    responses (Handler.handleRequest Scenario.established Scenario.refused
                 Scenario.request Scenario.clock) = [m]
    /\ rs_streamId m = "S" /\ rs_statusCode m = 502.
Proof.
  destruct (C8_failed_forward_bad_gateway Scenario.established
              Scenario.refused Scenario.request Scenario.clock 3000
              (HttpProxy.newError
                 "Cannot connect to local service on port 3000. Is your service running?")
              eq_refl ltac:(vm_compute; reflexivity))
    as (m & H & Hs & Hc & _).
  exists m. split; [exact H | split; [exact Hs | exact Hc]].
Defined.

(** *** Request logs *)

(** A connected session whose [tunnelId] was never set (see C9). *)
Definition connected_without_tunnel : Handler.State :=
  Session.setIsConnected (Handler.create Scenario.opts) true.

(** C4 (counterexample).  With [tunnelId] unset, a REQUEST that the local
    service answers produces its RESPONSE but no REQUEST_LOG at all, so in
    particular none whose [tunnelId] is the empty string. *)
Lemma C4_no_log_without_tunnelId :
  ~ (exists l,
       In l (request_logs (Handler.handleRequest connected_without_tunnel
                             Scenario.hello Scenario.request Scenario.clock))
       /\ lg_tunnelId l = "").
Proof.
  intros (l & Hin & _). vm_compute in Hin. exact Hin.
Qed.

(** C4 (amended).  For every REQUEST, exactly one REQUEST_LOG is emitted,
    as the last frame after the RESPONSE and carrying the session's
    [tunnelId], when that [tunnelId] is set and non-empty; when it is unset
    (or empty) no REQUEST_LOG is emitted. *)
Theorem C4_request_log_iff_tunnelId :
  forall st local req clock,
  let out := Handler.handleRequest st local req clock in
  let tid := Handler.or_empty (Handler.tunnelId st) in
  (truthy tid = true
   /\ exists rest l,
        out = (rest ++ [("message", MRequestLog l)])%list
        /\ lg_tunnelId l = tid
        /\ forallb (fun e => negb (is_request_log e)) rest = true)
  \/ (truthy tid = false /\ request_logs out = []).
Proof.
  intros st local req clock out tid. subst out.
  unfold Handler.handleRequest, sendRequestLog. fold tid.
  destruct (truthy tid) eqn:Ht; [left | right]; split; try reflexivity.
  - destruct (Handler.httpProxy st) as [port|];
      [destruct (HttpProxy.forwardRequest port local _)|]; simpl.
    + eexists [_], _. split; [reflexivity | split; reflexivity].
    + eexists [_], _. split; [reflexivity | split; reflexivity].
    + eexists [], _. split; [reflexivity | split; reflexivity].
  - destruct (Handler.httpProxy st) as [port|];
      [destruct (HttpProxy.forwardRequest port local _)|]; reflexivity.
Qed.


(** *** The public-URL normalizer *)

Module UrlFacts.

Import PublicUrl.

(** No [':'] and no ['/'] in a string: what [[^:/]+] captures. *)
Fixpoint no_sep (s : string) : bool :=
  match s with
  | EmptyString => true
  | String c s' =>
      negb (Ascii.eqb c ":"%char || Ascii.eqb c "/"%char) && no_sep s'
  end.

Lemma host_run_no_sep : forall s, no_sep (host_run s) = true.
Proof.
  induction s as [|c s IH]; simpl; [reflexivity|].
  destruct (Ascii.eqb c ":"%char || Ascii.eqb c "/"%char) eqn:E;
    simpl; [reflexivity|]. rewrite E, IH. reflexivity.
Qed.

Lemma match_domain_at_no_sep :
  forall s d, match_domain_at s = Some d -> no_sep d = true.
Proof.
  intros s d H. unfold match_domain_at in H.
  repeat match type of H with
  | context [if ?b then _ else _] => destruct b
  end;
  try discriminate; injection H as <-; apply host_run_no_sep.
Qed.

Lemma serverDomainOf_no_sep :
  forall s d, serverDomainOf s = Some d -> no_sep d = true.
Proof.
  induction s as [|c s IH]; intros d H; cbn [serverDomainOf] in H;
    destruct (match_domain_at _) as [r|] eqn:E.
  - injection H as <-. exact (match_domain_at_no_sep _ _ E).
  - discriminate.
  - injection H as <-. exact (match_domain_at_no_sep _ _ E).
  - exact (IH d H).
Qed.

Lemma prefix_app :
  forall p x, String.prefix p x = true -> x = p ++ drop (String.length p) x.
Proof.
  induction p as [|a p IH]; intros x H; [reflexivity|].
  destruct x as [|b x]; simpl in H; [discriminate|].
  destruct (ascii_dec a b) as [<-|]; [|discriminate].
  simpl. f_equal. apply IH. exact H.
Qed.

Lemma prefix_refl : forall s, String.prefix s s = true.
Proof.
  induction s as [|a s IH]; simpl; [reflexivity|].
  destruct (ascii_dec a a) as [_|n]; [exact IH | contradiction].
Qed.

Lemma includes_empty : forall s, includes s "" = true.
Proof. destruct s; reflexivity. Qed.

Lemma includes_self : forall d, includes d d = true.
Proof.
  destruct d as [|c d]; [reflexivity|].
  cbn [includes]. rewrite (prefix_refl (String c d)). reflexivity.
Qed.

Lemma includes_app_r :
  forall a b d, includes b d = true -> includes (a ++ b) d = true.
Proof.
  induction a as [|c a IH]; intros b d H; simpl; [exact H|].
  rewrite IH by exact H. apply orb_true_r.
Qed.

(** A separator-free string that is a prefix of [w ++ c :: t], with [c] a
    separator, is a prefix of [w]. *)
Lemma prefix_stops_at_sep :
  forall w d c t u,
  no_sep d = true ->
  (Ascii.eqb c ":"%char || Ascii.eqb c "/"%char) = true ->
  String.prefix d (w ++ String c t) = true ->
  String.prefix d (w ++ u) = true.
Proof.
  induction w as [|b w IH]; intros d c t u Hd Hc H;
    destruct d as [|a d]; try (destruct u; reflexivity); simpl in *.
  - destruct (ascii_dec a c) as [->|]; [|discriminate].
    rewrite Hc in Hd. discriminate.
  - destruct (ascii_dec a b) as [->|]; [|discriminate].
    apply andb_true_iff in Hd as [_ Hd].
    exact (IH d c t u Hd Hc H).
Qed.

Lemma force_https_includes :
  forall x d, no_sep d = true -> includes x d = true ->
  includes (force_https x) d = true.
Proof.
  intros x d Hd H. unfold force_https.
  destruct (String.prefix "http://" x) eqn:E; [|exact H].
  apply prefix_app in E.
  set (r := drop (String.length "http://") x) in E. clearbody r. subst x.
  cbn [includes String.append drop] in H |- *. rewrite !orb_true_iff in H |- *.
  destruct H as [H|[H|[H|[H|[H|[H|[H|H]]]]]]].
  - left. exact (prefix_stops_at_sep "http" d ":" ("//" ++ r) ("s://" ++ r)
                   Hd eq_refl H).
  - right; left. exact (prefix_stops_at_sep "ttp" d ":" ("//" ++ r)
                          ("s://" ++ r) Hd eq_refl H).
  - do 2 right; left. exact (prefix_stops_at_sep "tp" d ":" ("//" ++ r)
                               ("s://" ++ r) Hd eq_refl H).
  - do 3 right; left. exact (prefix_stops_at_sep "p" d ":" ("//" ++ r)
                               ("s://" ++ r) Hd eq_refl H).
  - do 4 right; left. exact (prefix_stops_at_sep "" d ":" ("//" ++ r)
                               ("s://" ++ r) Hd eq_refl H).
  - do 5 right; left. exact (prefix_stops_at_sep "" d "/" ("/" ++ r)
                               ("://" ++ r) Hd eq_refl H).
  - do 6 right; left. exact (prefix_stops_at_sep "" d "/" r
                               ("//" ++ r) Hd eq_refl H).
  - do 7 right. rewrite H. apply orb_true_r.
Qed.

Lemma force_https_idem : forall x, force_https (force_https x) = force_https x.
Proof.
  intros x. unfold force_https.
  destruct (String.prefix "http://" x) eqn:E.
  - reflexivity.
  - rewrite E. reflexivity.
Qed.

End UrlFacts.

(** C7 (counterexample).  The normalizer is not idempotent: with the
    spec's [serverUrl], a URL carrying two trailing ports loses one per
    pass. *)
Lemma C7_not_idempotent :
  PublicUrl.fixPublicUrl "https://demo.tunnl.fit:3000:3000" "demo."
    "https://tunnl.fit" = "https://demo.tunnl.fit:3000"
  /\ PublicUrl.fixPublicUrl
       (PublicUrl.fixPublicUrl "https://demo.tunnl.fit:3000:3000" "demo."
          "https://tunnl.fit") "demo." "https://tunnl.fit"
     = "https://demo.tunnl.fit".
Proof. split; vm_compute; reflexivity. Qed.

(** The first pass either returns a URL containing [localhost] or
    [127.0.0.1], or returns [force_https x] where [x] contains the
    server host whenever step 4 could fire. *)
Lemma fixPublicUrl_shape :
  forall url sub su,
  (PublicUrl.is_local url = true /\ PublicUrl.fixPublicUrl url sub su = url)
  \/ exists x,
       PublicUrl.fixPublicUrl url sub su = PublicUrl.force_https x
       /\ forall d, PublicUrl.serverDomainOf su = Some d ->
                    truthy sub = true -> includes x d = true.
Proof.
  intros url sub su. unfold PublicUrl.fixPublicUrl.
  destruct (PublicUrl.is_local url) eqn:Hl; [left; split; reflexivity|].
  right. eexists. split; [reflexivity|].
  intros d Hd Hsub. rewrite Hd, Hsub.
  destruct (truthy d) eqn:Htd; [|destruct d; [apply UrlFacts.includes_empty
                                               | discriminate]].
  destruct (includes (PublicUrl.strip_trailing_port
                        (PublicUrl.replace_fused_ports url)) d) eqn:Hi; simpl.
  - exact Hi.
  - apply UrlFacts.includes_app_r, UrlFacts.includes_app_r,
      UrlFacts.includes_self.
Qed.

(** C7 (amended).  A URL containing [localhost] or [127.0.0.1] is returned
    unchanged (hence normalizing it twice gives the same string), and a
    second pass leaves the first pass's output unchanged whenever steps 2
    and 3 (fused TLD port, trailing port) leave that output unchanged. *)
Theorem C7_normalizer_local_and_idempotent :
  forall url sub su,
  (PublicUrl.is_local url = true ->
     PublicUrl.fixPublicUrl url sub su = url
     /\ PublicUrl.fixPublicUrl (PublicUrl.fixPublicUrl url sub su) sub su
        = PublicUrl.fixPublicUrl url sub su)
  /\ (let o := PublicUrl.fixPublicUrl url sub su in
      PublicUrl.replace_fused_ports o = o ->
      PublicUrl.strip_trailing_port o = o ->
      PublicUrl.fixPublicUrl o sub su = o).
Proof.
  intros url sub su. split.
  - intros Hl.
    assert (Hu : PublicUrl.fixPublicUrl url sub su = url)
      by (unfold PublicUrl.fixPublicUrl; rewrite Hl; reflexivity).
    rewrite Hu. split; [reflexivity | exact Hu].
  - intros o Hr Hs.
    destruct (fixPublicUrl_shape url sub su) as [(Hl & Hu) | (x & Hx & Hinc)].
    + subst o. rewrite Hu in *. unfold PublicUrl.fixPublicUrl.
      rewrite Hl. reflexivity.
    + unfold PublicUrl.fixPublicUrl at 1.
      destruct (PublicUrl.is_local o); [reflexivity|].
      rewrite Hr, Hs.
      assert (Ho : PublicUrl.force_https o = o)
        by (subst o; rewrite Hx; apply UrlFacts.force_https_idem).
      destruct (PublicUrl.serverDomainOf su) as [d|] eqn:Hd; [|exact Ho].
      destruct (truthy sub) eqn:Hsub;
        [|rewrite andb_false_r; simpl; exact Ho].
      assert (Hi : includes o d = true).
      { subst o. rewrite Hx.
        apply UrlFacts.force_https_includes;
          [exact (UrlFacts.serverDomainOf_no_sep su d Hd)
          | exact (Hinc d eq_refl eq_refl)]. }
      rewrite Hi, andb_false_r. exact Ho.
Qed.

Lemma C7_normalizer_local_and_idempotent_witness :
  PublicUrl.fixPublicUrl "http://localhost:3000" "demo." "https://tunnl.fit"
  = "http://localhost:3000"
  /\ PublicUrl.fixPublicUrl
       (PublicUrl.fixPublicUrl "https://demo.tunnl.fit" "demo."
          "https://tunnl.fit") "demo." "https://tunnl.fit"
     = PublicUrl.fixPublicUrl "https://demo.tunnl.fit" "demo."
         "https://tunnl.fit".
Proof.
  destruct (C7_normalizer_local_and_idempotent "http://localhost:3000" "demo."
              "https://tunnl.fit") as [H1 _].
  destruct (C7_normalizer_local_and_idempotent "https://demo.tunnl.fit"
              "demo." "https://tunnl.fit") as [_ H2].
  split.
  - exact (proj1 (H1 ltac:(vm_compute; reflexivity))).
  - apply H2; vm_compute; reflexivity.
Defined.

(* ------------------------------------------------------------------ *)
(** ** Further properties of the code *)

Module Extra.

Import Handler.

Ltac nodup_strings :=
  repeat first [ apply NoDup_nil
               | apply NoDup_cons; [simpl; intuition discriminate|] ].

(** *** [filterHeaders] *)

Definition kept (kv : string * HeaderValue) : bool :=
  negb (HttpProxy.set_has HttpProxy.excludeHeaders (toLowerCase (fst kv))).

Lemma js_set_fresh :
  forall o k v, ~ In k (map fst o) -> js_set o k v = (o ++ [(k, v)])%list.
Proof.
  induction o as [|[k' v'] o IH]; intros k v Hk; [reflexivity|].
  simpl in *. destruct (String.eqb k k') eqn:E.
  - apply String.eqb_eq in E. subst. exfalso. apply Hk. left. reflexivity.
  - rewrite IH by tauto. reflexivity.
Qed.

Lemma filterHeaders_fold_filter :
  forall hs acc,
  NoDup (map fst hs) ->
  (forall k, In k (map fst acc) -> ~ In k (map fst hs)) ->
  fold_left
    (fun filtered '(key, value) =>
       if negb (HttpProxy.set_has HttpProxy.excludeHeaders (toLowerCase key))
       then js_set filtered key value else filtered) hs acc
  = (acc ++ filter kept hs)%list.
Proof.
  induction hs as [|[k v] hs IH]; intros acc Hnd Hdis.
  - simpl. rewrite app_nil_r. reflexivity.
  - simpl in Hnd. inversion Hnd as [|? ? Hk Hnd']. subst.
    cbn [fold_left filter].
    change (kept (k, v))
      with (negb (HttpProxy.set_has HttpProxy.excludeHeaders (toLowerCase k))).
    destruct (negb (HttpProxy.set_has HttpProxy.excludeHeaders
                      (toLowerCase k))).
    + rewrite js_set_fresh.
      * rewrite IH; [rewrite <- app_assoc; reflexivity | exact Hnd' |].
        intros k' Hin. rewrite map_app, in_app_iff in Hin.
        destruct Hin as [Hin | [<- | []]]; [|exact Hk].
        intro H. apply (Hdis k' Hin). right. exact H.
      * intro Hin. apply (Hdis k Hin). left. reflexivity.
    + apply IH; [exact Hnd'|]. intros k' Hin H. apply (Hdis k' Hin).
      right. exact H.
Qed.

(** For a header object (distinct keys, none of them [__proto__], whose
    assignment would set the prototype instead of a key), [filterHeaders]
    keeps exactly the entries whose lowercase name is not excluded, with
    their values and in their order. *)
Theorem filterHeaders_is_filter :
  forall hs,
  NoDup (map fst hs) -> ~ In "__proto__" (map fst hs) ->
  HttpProxy.filterHeaders hs = filter kept hs.
Proof.
  intros hs Hnd _. unfold HttpProxy.filterHeaders.
  apply (filterHeaders_fold_filter hs []); [exact Hnd | intros k []].
Qed.

Lemma filterHeaders_is_filter_witness :
  HttpProxy.filterHeaders
    [("Host", HStr "a"); ("X-Id", HStr "1"); ("accept", HArr ["*/*"])]
  = [("X-Id", HStr "1"); ("accept", HArr ["*/*"])].
Proof.
  rewrite filterHeaders_is_filter.
  - reflexivity.
  - simpl. nodup_strings.
  - simpl. intuition discriminate.
Defined.

(** *** [handleRequest] *)

Lemma request_logs_sendRequestLog :
  forall tid purl req code rt err now,
  Forall (fun l => lg_statusCode l = code)
    (request_logs (sendRequestLog tid purl req code rt err now)).
Proof.
  intros. unfold sendRequestLog. destruct (truthy tid); simpl; auto.
Qed.

(** With the forwarder present, every REQUEST yields exactly one RESPONSE,
    correlated by the request's [streamId], and the REQUEST_LOG (if any)
    reports the status code of that RESPONSE. *)
Theorem handleRequest_one_response :
  forall st local req clock port,
  httpProxy st = Some port ->
  exists m,
    responses (handleRequest st local req clock) = [m]
    /\ rs_streamId m = rq_streamId req
    /\ Forall (fun l => lg_statusCode l = rs_statusCode m)
         (request_logs (handleRequest st local req clock)).
Proof.
  intros st local req clock port Hp. unfold handleRequest. rewrite Hp.
  destruct (HttpProxy.forwardRequest port local (toProxyRequest req)).
  - eexists. split.
    + change (responses (("message", MResponse ?m) :: ?l))
        with (m :: responses l).
      rewrite responses_sendRequestLog. reflexivity.
    + split; [reflexivity|].
      change (request_logs (("message", MResponse ?m) :: ?l))
        with (request_logs l).
      apply request_logs_sendRequestLog.
  - eexists. split.
    + change (responses (("message", MResponse ?m) :: ?l))
        with (m :: responses l).
      rewrite responses_sendRequestLog. reflexivity.
    + split; [reflexivity|].
      change (request_logs (("message", MResponse ?m) :: ?l))
        with (request_logs l).
      apply request_logs_sendRequestLog.
Qed.

Lemma handleRequest_one_response_witness :
  exists m,
    responses (handleRequest Scenario.established Scenario.hello
                 Scenario.request Scenario.clock) = [m]
    /\ rs_streamId m = "S".
Proof.
  destruct (handleRequest_one_response Scenario.established Scenario.hello
              Scenario.request Scenario.clock 3000 eq_refl)
    as (m & H & Hs & _).
  exists m. split; [exact H | exact Hs].
Defined.


(** *** [pingLocalService] *)

Lemma prefix_app_self : forall p x, String.prefix p (p ++ x) = true.
Proof.
  induction p as [|a p IH]; intros x; [destruct x; reflexivity|].
  simpl. destruct (ascii_dec a a) as [_|n]; [apply IH | contradiction].
Qed.

Lemma includes_of_prefix :
  forall s p, String.prefix p s = true -> includes s p = true.
Proof.
  intros [|c s] p H; cbn [includes]; [exact H | rewrite H; reflexivity].
Qed.

Lemma str_append_assoc :
  forall a b c : string, (a ++ b) ++ c = a ++ (b ++ c).
Proof. induction a as [|x a IH]; intros b c; simpl; [|rewrite IH]; reflexivity. Qed.

Lemma refused_is_down :
  forall x,
  probe_error_is_down
    (HttpProxy.newError ("Cannot connect to local service on port " ++ x))
  = true.
Proof.
  intros x. unfold probe_error_is_down. cbn [HttpProxy.err_instanceofError
    HttpProxy.err_message HttpProxy.newError andb].
  rewrite (includes_of_prefix _ "Cannot connect to local service").
  - rewrite orb_true_r. reflexivity.
  - change "Cannot connect to local service on port "
      with ("Cannot connect to local service" ++ " on port ").
    rewrite str_append_assoc. apply prefix_app_self.
Qed.

Definition ping_frame (st : State) (now : Z) (connected : bool) : Emit :=
  ("local_service",
   MLocalServicePing {| lp_timestamp := now;
                        lp_tunnelId := or_empty (tunnelId st);
                        lp_localServiceConnected := connected |}).

(** Whenever the probe gets an HTTP response, whatever its status, a
    LOCAL_SERVICE_PING reporting the service as up is emitted (once the
    tunnel has an id). *)
Theorem probe_any_response_is_up :
  forall st local now port status text hs data,
  httpProxy st = Some port ->
  truthy (or_empty (tunnelId st)) = true ->
  local (HttpProxy.axiosConfig port pingRequest)
    = HttpProxy.AxResponse status text hs data ->
  pingLocalService st local now = [ping_frame st now true].
Proof.
  intros st local now port status text hs data Hp Ht Hl.
  unfold pingLocalService. rewrite Hp, Ht. simpl.
  unfold HttpProxy.forwardRequest. rewrite Hl.
  unfold sendLocalServicePing. rewrite Ht. reflexivity.
Qed.

Lemma probe_any_response_is_up_witness :
  Handler.pingLocalService Scenario.established Scenario.hello 20
  = [ping_frame Scenario.established 20 true].
Proof.
  apply (probe_any_response_is_up Scenario.established Scenario.hello 20
           3000 200 "OK" [("content-type", HStr "text/html")]
           (bytes_of_string "hello")); reflexivity.
Defined.

(** A probe refused by the local service (an axios error with code
    [ECONNREFUSED], whatever its message and port) emits a
    LOCAL_SERVICE_PING reporting the service as down: the rethrown error's
    message contains ["Cannot connect to local service"]. *)
Theorem probe_refused_is_down :
  forall st local now port inst msg,
  httpProxy st = Some port ->
  truthy (or_empty (tunnelId st)) = true ->
  local (HttpProxy.axiosConfig port pingRequest)
    = HttpProxy.AxReject {| HttpProxy.err_instanceofError := inst;
                            HttpProxy.err_isAxios := true;
                            HttpProxy.err_code := Some "ECONNREFUSED";
                            HttpProxy.err_message := msg |} ->
  pingLocalService st local now = [ping_frame st now false].
Proof.
  intros st local now port inst msg Hp Ht Hl.
  unfold pingLocalService. rewrite Hp, Ht. simpl.
  unfold HttpProxy.forwardRequest. rewrite Hl.
  cbn [HttpProxy.err_isAxios HttpProxy.err_code HttpProxy.code_is].
  rewrite String.eqb_refl, refused_is_down.
  unfold sendLocalServicePing. rewrite Ht. reflexivity.
Qed.

Lemma probe_refused_is_down_witness :
  Handler.pingLocalService Scenario.established Scenario.refused 20
  = [ping_frame Scenario.established 20 false].
Proof.
  apply (probe_refused_is_down Scenario.established Scenario.refused 20
           3000 true "connect ECONNREFUSED 127.0.0.1:3000");
    vm_compute; reflexivity.
Defined.

(** A probe tick emits at most one frame, a LOCAL_SERVICE_PING on the
    ['local_service'] event stamped [now] and carrying the session's
    tunnel id; without a tunnel id it emits nothing. *)
Theorem probe_emits_at_most_one_ping :
  forall st local now,
  (pingLocalService st local now = []
   \/ exists c, pingLocalService st local now = [ping_frame st now c])
  /\ (truthy (or_empty (tunnelId st)) = false ->
      pingLocalService st local now = []).
Proof.
  intros st local now. unfold pingLocalService.
  assert (Hs : forall c, sendLocalServicePing st c now = []
                         \/ sendLocalServicePing st c now = [ping_frame st now c]).
  { intros c. unfold sendLocalServicePing.
    destruct (truthy (or_empty (tunnelId st))); [right|left]; reflexivity. }
  split.
  - destruct (httpProxy st) as [port|]; [|left; reflexivity].
    destruct (truthy (or_empty (tunnelId st))); [|left; reflexivity]. simpl.
    destruct (HttpProxy.forwardRequest port local pingRequest) as [r|e].
    + destruct (Hs true) as [H|H]; rewrite H; [left | right; exists true];
        reflexivity.
    + destruct (probe_error_is_down e); [|left; reflexivity].
      destruct (Hs false) as [H|H]; rewrite H; [left | right; exists false];
        reflexivity.
  - intros Ht. destruct (httpProxy st); [rewrite Ht|]; reflexivity.
Qed.

(** *** The ['message'] listener *)

Import Session.

(** The listener calls [resolve()] exactly on a CONNECT or CONNECT_ACK
    frame received while not connected, and it marks the session connected
    exactly then: no frame ever disconnects it. *)
Theorem onMessage_resolves_iff :
  forall st now d,
  ls_resolved (onMessage st now d)
    = match d with
      | Some m => is_connect_or_ack m && negb (isConnected st)
      | None => false
      end
  /\ isConnected (ls_state (onMessage st now d))
     = isConnected st || ls_resolved (onMessage st now d).
Proof.
  intros st now [m|]; [|simpl; rewrite orb_false_r; split; reflexivity].
  destruct m; simpl;
    try (rewrite orb_false_r; split; reflexivity);
    destruct (isConnected st) eqn:E; simpl; split; auto.
Qed.

(** A frame that is neither CONNECT, CONNECT_ACK nor REQUEST (HEARTBEAT,
    HEARTBEAT_ACK, RESPONSE, ERROR, ...) changes nothing: no state change,
    no frame emitted (in particular no HEARTBEAT_ACK), nothing resolved or
    started. *)
Theorem onMessage_ignores_other_frames :
  forall st now m,
  is_connect_or_ack m = false ->
  (forall r, m <> MRequest r) ->
  onMessage st now (Some m)
  = {| ls_state := st; ls_emits := []; ls_resolved := false;
       ls_spawned := [] |}.
Proof.
  intros st now m H1 H2.
  destruct m; try discriminate H1; try reflexivity.
  exfalso. eapply H2. reflexivity.
Qed.

Lemma onMessage_ignores_other_frames_witness :
  onMessage Scenario.established 7 (Some (MHeartbeat 6))
  = {| ls_state := Scenario.established; ls_emits := [];
       ls_resolved := false; ls_spawned := [] |}.
Proof.
  apply onMessage_ignores_other_frames; [reflexivity | discriminate].
Defined.

(** A CONNECT_ACK received while not connected resolves [connect()],
    marks the session connected, stores the tunnel id, the subdomain and
    the normalized public URL, starts the heartbeat and the local probe,
    and emits nothing. *)
Theorem connect_ack_establishes :
  forall st now m,
  isConnected st = false ->
  let r := onMessage st now (Some (MConnectAck m)) in
  ls_resolved r = true /\ ls_emits r = [] /\ ls_spawned r = []
  /\ isConnected (ls_state r) = true
  /\ tunnelId (ls_state r) = Some (ca_tunnelId m)
  /\ subdomain (ls_state r) = Some (ca_subdomain m)
  /\ publicUrl (ls_state r)
     = Some (PublicUrl.fixPublicUrl (ca_publicUrl m) (ca_subdomain m)
               (serverUrl (options st)))
  /\ heartbeatInterval (ls_state r) = true
  /\ localServicePingInterval (ls_state r) = true.
Proof.
  intros st now m H. simpl. rewrite H. simpl.
  repeat split; reflexivity.
Qed.

Lemma connect_ack_establishes_witness :
  Handler.publicUrl
    (ls_state (onMessage (Handler.create Scenario.opts) 5
                 (Some (MConnectAck Scenario.ack))))
  = Some (PublicUrl.fixPublicUrl (ca_publicUrl Scenario.ack) "demo"
            "https://tunnl.fit").
Proof.
  destruct (connect_ack_establishes (Handler.create Scenario.opts) 5
              Scenario.ack eq_refl) as (_ & _ & _ & _ & _ & _ & H & _).
  exact H.
Defined.

(** Once connected, no frame makes the listener emit anything or call
    [resolve()] again, and the session stays connected. *)
Theorem connected_listener_is_silent :
  forall st now d,
  isConnected st = true ->
  ls_emits (onMessage st now d) = []
  /\ ls_resolved (onMessage st now d) = false
  /\ isConnected (ls_state (onMessage st now d)) = true.
Proof.
  intros st now [m|] H; [|repeat split; assumption].
  destruct m; simpl; try (rewrite H; simpl);
    try (repeat split; assumption).
  unfold handleConnect. rewrite H. repeat split; assumption.
Qed.

Lemma connected_listener_is_silent_witness :
  ls_emits (onMessage Scenario.established 9
              (Some (MConnectAck Scenario.ack))) = [].
Proof.
  destruct (connected_listener_is_silent Scenario.established 9
              (Some (MConnectAck Scenario.ack)) eq_refl) as [H _].
  exact H.
Defined.

(** *** Reconnection *)

Lemma backoff_delay_range :
  forall r, 0 <= r -> 5000 <= Z.min (baseDelay * 2 ^ r) maxDelay <= 60000.
Proof.
  intros r Hr. unfold baseDelay, maxDelay.
  assert (1 <= 2 ^ r) by (change 1 with (2 ^ 0); apply Z.pow_le_mono_r; lia).
  lia.
Qed.

(** From any non-negative retry count, a run of failed attempts schedules
    at most [9 - retryCount] timers, each with a delay between 5 and 60
    seconds, and ends either still waiting or with [process.exit(1)]; once
    [shouldReconnect] is false, the first failure exits. *)
Theorem failures_bounds :
  forall sr r n,
  0 <= r ->
  Z.of_nat (List.length (fst (failures sr r n))) <= Z.max 0 (9 - r)
  /\ Forall (fun d => 5000 <= d <= 60000) (fst (failures sr r n))
  /\ (snd (failures sr r n) = None \/ snd (failures sr r n) = Some 1)
  /\ (sr = false -> (0 < n)%nat -> failures sr r n = ([], Some 1)).
Proof.
  intros sr r n. revert r.
  induction n as [|n IH]; intros r Hr.
  - simpl. repeat split; auto; [lia | intros _ H; lia].
  - cbn [failures]. unfold attemptReconnect. cbn [negb orb].
    destruct ((r <? maxRetries - 1) && sr) eqn:E.
    + apply andb_true_iff in E as [E Hsr].
      apply Z.ltb_lt in E. unfold maxRetries in E.
      destruct (IH (r + 1) ltac:(lia)) as (Hl & Hf & He & _).
      destruct (failures sr (r + 1) n) as [ds e].
      cbn [fst snd List.length] in *. rewrite Nat2Z.inj_succ.
      repeat split.
      * lia.
      * constructor; [apply backoff_delay_range; lia | exact Hf].
      * exact He.
      * intros ->. discriminate Hsr.
    + cbn [fst snd List.length]. repeat split; auto; lia.
Qed.

Lemma failures_bounds_witness :
  Z.of_nat (List.length (fst (failures true 3 20))) <= 6.
Proof.
  destruct (failures_bounds true 3 20 ltac:(lia)) as [H _].
  exact H.
Defined.

(** With reconnection on, starting at [retryCount] [r] in [0..9], the
    client gives up for good: [10 - r] failed attempts schedule exactly
    [9 - r] timers and then [process.exit(1)]. *)
Theorem failures_give_up :
  forall r n,
  0 <= r <= 9 -> (Z.to_nat (10 - r) <= n)%nat ->
  Z.of_nat (List.length (fst (failures true r n))) = 9 - r
  /\ snd (failures true r n) = Some 1.
Proof.
  intros r n. revert r.
  induction n as [|n IH]; intros r Hr Hn; [lia|].
  cbn [failures]. unfold attemptReconnect. rewrite andb_true_r.
  destruct (r <? maxRetries - 1) eqn:E.
  - apply Z.ltb_lt in E. unfold maxRetries in E.
    destruct (IH (r + 1) ltac:(lia) ltac:(lia)) as [Hl He].
    destruct (failures true (r + 1) n) as [ds e].
    cbn [fst snd List.length] in *. rewrite Nat2Z.inj_succ. split; [lia | exact He].
  - apply Z.ltb_ge in E. unfold maxRetries in E. cbn [fst snd List.length].
    split; [lia | reflexivity].
Qed.

Lemma failures_give_up_witness :
  snd (failures true 0 10) = Some 1.
Proof.
  destruct (failures_give_up 0 10 ltac:(lia) ltac:(simpl; lia)) as [_ H].
  exact H.
Defined.

(** *** Teardown *)

Import Lifecycle.

(** After [destroy()], a later socket disconnect arms no reconnection and
    leaves no timer running; the heartbeat emits nothing afterwards. *)
Theorem destroy_then_disconnect_is_final :
  forall st now,
  let '(st', armed) := handleDisconnect (destroy st) in
  armed = None
  /\ isConnected st' = false /\ shouldReconnect st' = false
  /\ heartbeatInterval st' = false /\ reconnectTimeout st' = false
  /\ localServicePingInterval st' = false
  /\ heartbeatTick st' now = [].
Proof. intros st now. simpl. repeat split. Qed.

(** [TunnelClient.disconnect()] sends the DISCONNECT frame with reason
    ["Client disconnect"] exactly when a socket is present, leaves the
    handler not connected, without reconnection and without timers, and a
    second call changes nothing and sends nothing. *)
Theorem clientDisconnect_once :
  forall c now now',
  let '(c', out) := clientDisconnect c now in
  out = (if socket_present c
         then [("message", MDisconnect now (Some "Client disconnect"))]
         else [])
  /\ socket_present c' = false
  /\ (forall h, messageHandler c' = Some h ->
        isConnected h = false /\ shouldReconnect h = false
        /\ heartbeatInterval h = false /\ reconnectTimeout h = false
        /\ localServicePingInterval h = false
        /\ snd (handleDisconnect h) = None)
  /\ clientDisconnect c' now' = (c', []).
Proof.
  intros [sp [h|]] now now'; cbn [clientDisconnect option_map
    socket_present messageHandler].
  - split; [reflexivity|]. split; [reflexivity|]. split.
    + intros h' Hh. injection Hh as Hh. subst h'. repeat split.
    + unfold clientDisconnect. destruct h; reflexivity.
  - split; [reflexivity|]. split; [reflexivity|]. split.
    + intros h' Hh. discriminate Hh.
    + reflexivity.
Qed.

(** *** Public URL normalization *)

Lemma force_https_not_http :
  forall x, String.prefix "http://" (PublicUrl.force_https x) = false.
Proof.
  intros x. unfold PublicUrl.force_https.
  destruct (String.prefix "http://" x) eqn:E; [reflexivity | exact E].
Qed.

(** A non-local public URL never comes out with the [http://] scheme. *)
Theorem fixPublicUrl_never_http :
  forall url sub su,
  PublicUrl.is_local url = false ->
  String.prefix "http://" (PublicUrl.fixPublicUrl url sub su) = false.
Proof.
  intros url sub su Hl. unfold PublicUrl.fixPublicUrl. rewrite Hl.
  apply force_https_not_http.
Qed.

Lemma fixPublicUrl_never_http_witness :
  String.prefix "http://"
    (PublicUrl.fixPublicUrl "http://demo.tunnl.fit" "demo" "ws://tunnl.fit")
  = false.
Proof. apply fixPublicUrl_never_http. reflexivity. Defined.

(** A non-local public URL always contains the server domain extracted
    from [serverUrl], when there is one and the subdomain is non-empty. *)
Theorem fixPublicUrl_has_server_domain :
  forall url sub su d,
  PublicUrl.is_local url = false ->
  PublicUrl.serverDomainOf su = Some d ->
  truthy sub = true ->
  includes (PublicUrl.fixPublicUrl url sub su) d = true.
Proof.
  intros url sub su d Hl Hd Hs.
  destruct (fixPublicUrl_shape url sub su) as [[H _] | (x & -> & Hx)].
  - rewrite Hl in H. discriminate.
  - apply UrlFacts.force_https_includes.
    + exact (UrlFacts.serverDomainOf_no_sep su d Hd).
    + exact (Hx d Hd Hs).
Qed.

Lemma fixPublicUrl_has_server_domain_witness :
  includes (PublicUrl.fixPublicUrl "http://x.example.com:8080" "demo"
              "ws://tunnl.fit") "tunnl.fit" = true.
Proof.
  apply (fixPublicUrl_has_server_domain _ _ _ "tunnl.fit"); reflexivity.
Defined.

(** For an [https://] or [http://] server URL, the server domain extracted
    by [/(?:wss?:\/\/)?([^:/]+)/] is the scheme name itself, whatever
    follows. *)
Theorem serverDomainOf_http_scheme :
  forall r,
  PublicUrl.serverDomainOf ("https://" ++ r) = Some "https"
  /\ PublicUrl.serverDomainOf ("http://" ++ r) = Some "http".
Proof. intros r. split; reflexivity. Qed.

Lemma host_run_app :
  forall h r, UrlFacts.no_sep h = true ->
  PublicUrl.host_run (h ++ r) = h ++ PublicUrl.host_run r.
Proof.
  induction h as [|c h IH]; intros r H; [reflexivity|].
  simpl in H. apply andb_true_iff in H as [Hc H].
  simpl. destruct (Ascii.eqb c ":"%char || Ascii.eqb c "/"%char);
    [discriminate Hc|]. rewrite IH by exact H. reflexivity.
Qed.

Lemma str_append_nil_r : forall s : string, s ++ "" = s.
Proof. induction s as [|c s IH]; simpl; [|rewrite IH]; reflexivity. Qed.

Lemma drop_app :
  forall p x, drop (String.length p) (p ++ x) = x.
Proof. induction p as [|c p IH]; intros x; [reflexivity | apply IH]. Qed.

Lemma serverDomainOf_at :
  forall s r,
  PublicUrl.match_domain_at s = Some r -> PublicUrl.serverDomainOf s = Some r.
Proof.
  intros [|c s] r H; cbn [PublicUrl.serverDomainOf]; rewrite H; reflexivity.
Qed.

Definition ends_host (r : string) : Prop :=
  match r with
  | EmptyString => True
  | String c _ => c = ":"%char \/ c = "/"%char
  end.

Lemma host_run_ends : forall r, ends_host r -> PublicUrl.host_run r = "".
Proof.
  intros [|c r] H; [reflexivity|]. simpl in H.
  destruct H as [-> | ->]; reflexivity.
Qed.

(** For a [wss://] or [ws://] server URL, the server domain is the host:
    the non-empty run of characters other than [':'] and ['/'] after the
    scheme, up to the port, the path or the end. *)
Theorem serverDomainOf_ws_host :
  forall h r,
  truthy h = true -> UrlFacts.no_sep h = true -> ends_host r ->
  PublicUrl.serverDomainOf ("wss://" ++ h ++ r) = Some h
  /\ PublicUrl.serverDomainOf ("ws://" ++ h ++ r) = Some h.
Proof.
  intros h r Ht Hn Hr.
  assert (Hh : PublicUrl.host_run (h ++ r) = h)
    by (rewrite host_run_app, host_run_ends, str_append_nil_r; auto).
  split; apply serverDomainOf_at; unfold PublicUrl.match_domain_at;
    cbv beta zeta.
  - rewrite (prefix_app_self "wss://" (h ++ r)), drop_app, Hh, Ht.
    reflexivity.
  - change (String.prefix "wss://" ("ws://" ++ h ++ r)) with false.
    rewrite (prefix_app_self "ws://" (h ++ r)), drop_app, Hh, Ht.
    reflexivity.
Qed.

Lemma serverDomainOf_ws_host_witness :
  PublicUrl.serverDomainOf "wss://tunnl.fit:443/socket" = Some "tunnl.fit".
Proof.
  apply (serverDomainOf_ws_host "tunnl.fit" ":443/socket");
    [reflexivity | reflexivity | simpl; left; reflexivity].
Defined.

(** *** Base64 *)

Definition is_byte (x : Z) : Prop := 0 <= x < 256.

Lemma lor_disjoint :
  forall x y k, 0 <= k -> 0 <= y < 2 ^ k ->
  Z.lor (Z.shiftl x k) y = x * 2 ^ k + y.
Proof.
  intros x y k Hk Hy.
  assert (H0 : Z.land (Z.shiftl x k) y = 0).
  { apply Z.bits_inj'. intros i Hi. rewrite Z.land_spec, Z.bits_0.
    destruct (Z.lt_ge_cases i k) as [Hik|Hik].
    - rewrite Z.shiftl_spec_low by exact Hik. reflexivity.
    - rewrite <- (Z.mod_small y (2 ^ k)) by lia.
      rewrite Z.mod_pow2_bits_high by lia. apply andb_false_r. }
  rewrite <- Z.lxor_lor by exact H0. rewrite <- Z.add_nocarry_lxor by exact H0.
  rewrite Z.shiftl_mul_pow2 by exact Hk. reflexivity.
Qed.

Lemma land_63 : forall x, Z.land x 63 = x mod 2 ^ 6.
Proof. intros x. apply (Z.land_ones x 6). lia. Qed.

Lemma land_255 : forall x, Z.land x 255 = x mod 2 ^ 8.
Proof. intros x. apply (Z.land_ones x 8). lia. Qed.

Definition char_ok (k : nat) : bool :=
  match Base64.char_of (Z.of_nat k) with
  | String c EmptyString =>
      negb (Ascii.eqb c "="%char)
      && match Base64.digit_value c with
         | Some v => v =? Z.of_nat k
         | None => false
         end
  | _ => false
  end.

Lemma all_chars_ok : forallb char_ok (seq 0 64) = true.
Proof. vm_compute. reflexivity. Qed.

Lemma digits_char_of :
  forall n s, 0 <= n < 64 ->
  Base64.digits (Base64.char_of n ++ s) = n :: Base64.digits s.
Proof.
  intros n s Hn.
  assert (Hk : char_ok (Z.to_nat n) = true).
  { apply (proj1 (forallb_forall _ _) all_chars_ok).
    apply in_seq. lia. }
  unfold char_ok in Hk. rewrite Z2Nat.id in Hk by lia.
  destruct (Base64.char_of n) as [|c [|c' t]]; try discriminate Hk.
  apply andb_true_iff in Hk as [He Hv].
  simpl. apply negb_true_iff in He. rewrite He.
  destruct (Base64.digit_value c) as [v|]; [|discriminate Hv].
  apply Z.eqb_eq in Hv. subst v. reflexivity.
Qed.

Lemma decode_group3 :
  forall a b c rest,
  is_byte a -> is_byte b -> is_byte c ->
  Base64.bytes_of_digits
    (Base64.digits
       (Base64.encode (a :: b :: c :: rest)))
  = a :: b :: c :: Base64.bytes_of_digits
                     (Base64.digits (Base64.encode rest)).
Proof.
  intros a b c rest Ha Hb Hc. unfold is_byte in *.
  cbn [Base64.encode].
  assert (Hn : Z.lor (Z.shiftl a 16) (Z.lor (Z.shiftl b 8) c)
               = a * 2 ^ 16 + b * 2 ^ 8 + c).
  { rewrite (lor_disjoint b c 8) by lia.
    rewrite (lor_disjoint a) by lia. lia. }
  rewrite Hn. set (N := a * 2 ^ 16 + b * 2 ^ 8 + c).
  assert (HN : 0 <= N < 2 ^ 24) by (unfold N; lia).
  rewrite !Z.shiftr_div_pow2, !land_63 by lia.
  rewrite !digits_char_of by (Z.div_mod_to_equations; lia).
  cbn [Base64.bytes_of_digits].
  rewrite (lor_disjoint (N / 2 ^ 6 mod 2 ^ 6) (N mod 2 ^ 6) 6)
    by (Z.div_mod_to_equations; lia).
  rewrite (lor_disjoint (N / 2 ^ 12 mod 2 ^ 6)) by (Z.div_mod_to_equations; lia).
  rewrite (lor_disjoint (N / 2 ^ 18)) by (Z.div_mod_to_equations; lia).
  assert (Hr : N / 2 ^ 18 * 2 ^ 18
               + (N / 2 ^ 12 mod 2 ^ 6 * 2 ^ 12
                  + (N / 2 ^ 6 mod 2 ^ 6 * 2 ^ 6 + N mod 2 ^ 6)) = N)
    by (Z.div_mod_to_equations; lia).
  rewrite Hr, !Z.shiftr_div_pow2, !land_255 by lia.
  f_equal; [|f_equal; [|f_equal]]; unfold N; Z.div_mod_to_equations; lia.
Qed.

Lemma decode_group2 :
  forall a b, is_byte a -> is_byte b ->
  Base64.bytes_of_digits (Base64.digits (Base64.encode [a; b])) = [a; b].
Proof.
  intros a b Ha Hb. unfold is_byte in *.
  cbn [Base64.encode].
  assert (Hn : Z.lor (Z.shiftl a 16) (Z.shiftl b 8) = a * 2 ^ 16 + b * 2 ^ 8).
  { rewrite (lor_disjoint a) by (try rewrite Z.shiftl_mul_pow2 by lia; lia).
    rewrite Z.shiftl_mul_pow2 by lia. reflexivity. }
  rewrite Hn. set (N := a * 2 ^ 16 + b * 2 ^ 8).
  assert (HN : 0 <= N < 2 ^ 24) by (unfold N; lia).
  rewrite !Z.shiftr_div_pow2, !land_63 by lia.
  rewrite !digits_char_of by (Z.div_mod_to_equations; lia).
  change (Base64.digits "=") with (@nil Z).
  cbn [Base64.bytes_of_digits].
  rewrite (lor_disjoint (N / 2 ^ 12 mod 2 ^ 6))
    by (try rewrite Z.shiftl_mul_pow2 by lia; Z.div_mod_to_equations; lia).
  rewrite (lor_disjoint (N / 2 ^ 18))
    by (try rewrite Z.shiftl_mul_pow2 by lia; Z.div_mod_to_equations; lia).
  rewrite Z.shiftl_mul_pow2 by lia.
  assert (Hr : N / 2 ^ 18 * 2 ^ 18
               + (N / 2 ^ 12 mod 2 ^ 6 * 2 ^ 12
                  + N / 2 ^ 6 mod 2 ^ 6 * 2 ^ 6) = N)
    by (unfold N; Z.div_mod_to_equations; lia).
  rewrite Hr, !Z.shiftr_div_pow2, !land_255 by lia.
  repeat f_equal; unfold N; Z.div_mod_to_equations; lia.
Qed.

Lemma decode_group1 :
  forall a, is_byte a ->
  Base64.bytes_of_digits (Base64.digits (Base64.encode [a])) = [a].
Proof.
  intros a Ha. unfold is_byte in *.
  cbn [Base64.encode].
  rewrite Z.shiftl_mul_pow2 by lia. set (N := a * 2 ^ 16).
  assert (HN : 0 <= N < 2 ^ 24) by (unfold N; lia).
  rewrite !Z.shiftr_div_pow2, !land_63 by lia.
  rewrite !digits_char_of by (Z.div_mod_to_equations; lia).
  change (Base64.digits "==") with (@nil Z).
  cbn [Base64.bytes_of_digits].
  rewrite (lor_disjoint (N / 2 ^ 18))
    by (try rewrite Z.shiftl_mul_pow2 by lia; Z.div_mod_to_equations; lia).
  rewrite Z.shiftl_mul_pow2, Z.shiftr_div_pow2 by lia.
  f_equal. unfold N. Z.div_mod_to_equations; lia.
Qed.

(** [Buffer.from(s, 'base64')] inverts [buf.toString('base64')]: any
    byte sequence survives the encoding of a RESPONSE body. *)
Theorem base64_roundtrip :
  forall bs, Forall is_byte bs -> Base64.decode (Base64.encode bs) = bs.
Proof.
  unfold Base64.decode.
  assert (H : forall n bs, (List.length bs <= n)%nat -> Forall is_byte bs ->
    Base64.bytes_of_digits (Base64.digits (Base64.encode bs)) = bs).
  { induction n as [|n IH]; intros bs Hl Hb.
    - destruct bs; [reflexivity | simpl in Hl; lia].
    - destruct bs as [|a [|b [|c r]]]; [reflexivity | | |].
      + inversion Hb. apply decode_group1. assumption.
      + inversion Hb as [|? ? Ha Hb']. inversion Hb'.
        apply decode_group2; assumption.
      + inversion Hb as [|? ? Ha Hb1]. inversion Hb1 as [|? ? Hb' Hb2].
        inversion Hb2 as [|? ? Hc Hr].
        rewrite decode_group3 by assumption. rewrite IH; [reflexivity| |exact Hr].
        simpl in Hl. lia. }
  intros bs. apply (H (List.length bs) bs). lia.
Qed.

Lemma base64_roundtrip_witness :
  Base64.decode (Base64.encode [0; 255; 128; 7]) = [0; 255; 128; 7].
Proof.
  apply base64_roundtrip.
  repeat constructor; unfold is_byte; lia.
Defined.

(** Whatever the local service answers, the RESPONSE frame carries its
    status code and status text unchanged and a body that decodes back to
    the bytes it sent; the REQUEST_LOG (if any) reports the same status. *)
Theorem handleRequest_passes_response :
  forall st local req clock port status text hs data,
  httpProxy st = Some port ->
  local (HttpProxy.axiosConfig port (toProxyRequest req))
    = HttpProxy.AxResponse status text hs data ->
  Forall is_byte data ->
  exists m,
    responses (handleRequest st local req clock) = [m]
    /\ rs_streamId m = rq_streamId req
    /\ rs_statusCode m = status
    /\ rs_statusMessage m = text
    /\ Base64.decode (rs_body m) = data
    /\ Forall (fun l => lg_statusCode l = status)
         (request_logs (handleRequest st local req clock)).
Proof.
  intros st local req clock port status text hs data Hp Hl Hd.
  unfold handleRequest. rewrite Hp. unfold HttpProxy.forwardRequest.
  rewrite Hl. eexists. split.
  - change (responses (("message", MResponse ?m) :: ?l))
      with (m :: responses l).
    rewrite responses_sendRequestLog. reflexivity.
  - cbn [rs_streamId rs_statusCode rs_statusMessage rs_body
         HttpProxy.statusCode HttpProxy.statusMessage HttpProxy.body].
    split; [reflexivity|]. split; [reflexivity|]. split; [reflexivity|].
    split; [apply base64_roundtrip; exact Hd|].
    change (request_logs (("message", MResponse ?m) :: ?l))
      with (request_logs l).
    apply request_logs_sendRequestLog.
Qed.

Lemma handleRequest_passes_response_witness :
  exists m,
    responses (handleRequest Scenario.established Scenario.hello
                 Scenario.request Scenario.clock) = [m]
    /\ Base64.decode (rs_body m) = bytes_of_string "hello".
Proof.
  destruct (handleRequest_passes_response Scenario.established
              Scenario.hello Scenario.request Scenario.clock 3000 200 "OK"
              [("content-type", HStr "text/html")] (bytes_of_string "hello")
              eq_refl eq_refl)
    as (m & H1 & _ & _ & _ & H2 & _).
  - simpl. repeat constructor; unfold is_byte; lia.
  - exists m. split; [exact H1 | exact H2].
Defined.

Lemma timed_out_is_not_down :
  probe_error_is_down
    (HttpProxy.newError "Request to local service timed out") = false.
Proof. vm_compute. reflexivity. Qed.

(** A probe that times out (axios code [ETIMEDOUT] or [ECONNABORTED])
    emits nothing, whatever the state and the error's message: the
    rethrown message matches none of the three tested substrings. *)
Theorem probe_timeout_emits_nothing :
  forall st local now port inst msg code,
  httpProxy st = Some port ->
  (code = "ETIMEDOUT" \/ code = "ECONNABORTED") ->
  local (HttpProxy.axiosConfig port pingRequest)
    = HttpProxy.AxReject {| HttpProxy.err_instanceofError := inst;
                            HttpProxy.err_isAxios := true;
                            HttpProxy.err_code := Some code;
                            HttpProxy.err_message := msg |} ->
  pingLocalService st local now = [].
Proof.
  intros st local now port inst msg code Hp Hc Hl.
  unfold pingLocalService. rewrite Hp.
  destruct (negb (truthy (or_empty (tunnelId st)))); [reflexivity|].
  unfold HttpProxy.forwardRequest. rewrite Hl.
  cbn [HttpProxy.err_isAxios HttpProxy.err_code HttpProxy.code_is].
  destruct Hc as [-> | ->]; cbv [String.eqb orb Ascii.eqb Bool.eqb];
    rewrite timed_out_is_not_down; reflexivity.
Qed.

Lemma probe_timeout_emits_nothing_witness :
  Handler.pingLocalService Scenario.established Scenario.timed_out 20 = [].
Proof.
  apply (probe_timeout_emits_nothing Scenario.established Scenario.timed_out
           20 3000 true "connect ETIMEDOUT 127.0.0.1:3000" "ETIMEDOUT");
    [reflexivity | left; reflexivity | vm_compute; reflexivity].
Defined.

End Extra.
